(** * Refresh-token rotation of the Express authentication template

    A shallow embedding of the token utilities ([src/utils/jwt.ts]), the
    user document ([src/models/User.ts]) and the handlers [login],
    [refresh] ([src/controllers/authController.ts]) and [updatePassword]
    (user controller), followed by the properties of the rotation and
    reuse-detection protocol.

    Conventions of the embedding:
    - the clock is a parameter [now], the value of [Date.now()] in
      milliseconds; one handler invocation reads one instant;
    - a handler is a function from the database to a response and the
      database it leaves behind; requests are served one after the other,
      and the database does nothing between them;
    - the [users] collection is a finite map from the document [_id] (in its
      string form) to the document; a document is modelled without the
      [createdAt] and [updatedAt] stamps that the schema's [timestamps]
      option maintains and that no handler decision reads;
    - [jsonwebtoken] and [bcryptjs] are external libraries: signed tokens
      are modelled symbolically (equal strings are exactly equal signing
      key and claims, HS256 signing being deterministic), the password
      hashing functions are section variables. *)

From Stdlib Require Import ZArith Lia.
From stdpp Require Import base option list strings gmap.

Local Open Scope string_scope.
Local Open Scope Z_scope.

(** ** Results of calls that may throw *)

Inductive result (E A : Type) : Type :=
| Ok (value : A)
| Throw (error : E).
Arguments Ok {E A} value.
Arguments Throw {E A} error.

(** ** [jsonwebtoken]: symbolic tokens *)

Module Jwt.

(** [interface TokenPayload]; [jwt.sign] always stamps [iat] and, given
    [expiresIn], [exp] (both in seconds). *)
Record TokenPayload : Type := mkPayload {
  userId : string;
  email : string;
  iat : Z;
  exp : Z;
}.

(** A token string: either a well-formed JWS made with some signing key,
    or any other string. *)
Inductive Token : Type :=
| Signed (secret : string) (payload : TokenPayload)
| Malformed (raw : string).

Inductive JwtError : Type :=
| JsonWebTokenError (message : string)
| TokenExpiredError.

#[global] Instance TokenPayload_eq_dec : EqDecision TokenPayload.
Proof. solve_decision. Defined.

#[global] Instance Token_eq_dec : EqDecision Token.
Proof. solve_decision. Defined.

(** [jwt.sign(payload, secret, { expiresIn })] at clock [now] (ms). *)
Definition sign (now : Z) (uid mail : string) (secret : string) (expiresIn : Z)
  : Token :=
  let timestamp := now / 1000 in
  Signed secret (mkPayload uid mail timestamp (timestamp + expiresIn)).

(** [jwt.verify(token, secret)] at clock [now] (ms): decoding, then the
    signature, then [clockTimestamp >= payload.exp]. *)
Definition verify (now : Z) (token : Token) (secret : string)
  : result JwtError TokenPayload :=
  match token with
  | Malformed _ => Throw (JsonWebTokenError "jwt malformed")
  | Signed key payload =>
      if decide (key = secret) then
        if now / 1000 >=? exp payload then Throw TokenExpiredError
        else Ok payload
      else Throw (JsonWebTokenError "invalid signature")
  end.

End Jwt.
Export Jwt.

(** ** [process.env] as read by [src/utils/jwt.ts] *)

(** Expiries are kept in seconds, the unit [jsonwebtoken] converts the
    [expiresIn] strings to. *)
Record Env : Type := mkEnv {
  JWT_ACCESS_SECRET : option string;
  JWT_REFRESH_SECRET : option string;
  JWT_ACCESS_EXPIRY : option Z;
  JWT_REFRESH_EXPIRY : option Z;
}.

(** JavaScript [x || d] on a string that may be undefined: the empty string
    is falsy as well. *)
Definition or_string (x : option string) (d : string) : string :=
  match x with
  | Some s => if decide (s = "") then d else s
  | None => d
  end.

Definition or_expiry (x : option Z) (d : Z) : Z :=
  match x with
  | Some e => e
  | None => d
  end.

Definition access_secret (env : Env) : string :=
  or_string (JWT_ACCESS_SECRET env) "access-secret".
Definition refresh_secret (env : Env) : string :=
  or_string (JWT_REFRESH_SECRET env) "refresh-secret".
(** ["15m"] *)
Definition access_expiry (env : Env) : Z :=
  or_expiry (JWT_ACCESS_EXPIRY env) (15 * 60).
(** ["7d"] *)
Definition refresh_expiry (env : Env) : Z :=
  or_expiry (JWT_REFRESH_EXPIRY env) (7 * 24 * 60 * 60).

(** ** [src/utils/jwt.ts] *)

Definition generateAccessToken (env : Env) (now : Z) (uid mail : string) : Token :=
  Jwt.sign now uid mail (access_secret env) (access_expiry env).

Definition generateRefreshToken (env : Env) (now : Z) (uid mail : string) : Token :=
  Jwt.sign now uid mail (refresh_secret env) (refresh_expiry env).

Definition verifyAccessToken (env : Env) (now : Z) (token : Token)
  : result JwtError TokenPayload :=
  Jwt.verify now token (access_secret env).

Definition verifyRefreshToken (env : Env) (now : Z) (token : Token)
  : result JwtError TokenPayload :=
  Jwt.verify now token (refresh_secret env).

(** The environment with none of the four variables set. *)
Definition default_env : Env := mkEnv None None None None.

(** ** [bcryptjs] *)

(** [hash] is [bcrypt.hash] as the pre-save hook of the schema calls it
    (the salt of the call folded in), [compare] is [bcrypt.compare] on a
    candidate and a stored hash. *)
Class Bcrypt : Type := {
  bcrypt_hash : string -> string;
  bcrypt_compare : string -> string -> bool;
}.

(** ** [src/models/User.ts] *)

(** An element of the [refreshToken] array. *)
Record RefreshTokenEntry : Type := mkRefreshToken {
  token : Token;
  createdAt : Z;
  lastUsedAt : Z;
}.

(** An element of the [refreshHistory] array. *)
Record RefreshHistoryEntry : Type := mkRefreshHistory {
  h_token : Token;
  h_lastUsedAt : Z;
}.

(** The user document; its [_id] is the key it is stored under. *)
Record UserDoc : Type := mkUser {
  u_email : string;
  u_password : string;
  u_name : string;
  refreshToken : list RefreshTokenEntry;
  refreshHistory : list RefreshHistoryEntry;
}.

Abbreviation DB := (gmap string UserDoc).

(** [UserSchema.methods.comparePassword] *)
Definition comparePassword `{Bcrypt} (user : UserDoc) (candidatePassword : string) : bool :=
  bcrypt_compare candidatePassword (u_password user).

(** *** Queries and update operators used by the handlers *)

(** [User.findOne({ email })], with the [_id] of the document found. *)
Definition findOne_email (mail : string) (db : DB) : option (string * UserDoc) :=
  List.find (fun kv => bool_decide (u_email kv.2 = mail)) (map_to_list db).

(** [User.findById(id)] *)
Definition findById (id : string) (db : DB) : option UserDoc := db !! id.

(** [User.findByIdAndUpdate(id, update)]: nothing happens when no document
    has that [_id]. *)
Definition findByIdAndUpdate (id : string) (update : UserDoc -> UserDoc) (db : DB) : DB :=
  alter update id db.

(** [{ $set: { <path>: [] } }]. The schema is strict: a path it does not
    declare is not written (the update still moves [updatedAt], which the
    model leaves out). *)
Definition set_empty_array (path : string) (u : UserDoc) : UserDoc :=
  if decide (path = "refreshToken") then
    mkUser (u_email u) (u_password u) (u_name u) [] (refreshHistory u)
  else if decide (path = "refreshHistory") then
    mkUser (u_email u) (u_password u) (u_name u) (refreshToken u) []
  else u.

(** [{ $pull: { refreshToken: { createdAt: { $lt: bound } } } }] *)
Definition pull_created_before (bound : Z) (u : UserDoc) : UserDoc :=
  mkUser (u_email u) (u_password u) (u_name u)
    (filter (fun e => ~ createdAt e < bound) (refreshToken u))
    (refreshHistory u).

(** [{ refreshHistory: [], $pull: { refreshToken: { token: t } } }] *)
Definition clear_history_pull_token (t : Token) (u : UserDoc) : UserDoc :=
  mkUser (u_email u) (u_password u) (u_name u)
    (filter (fun e => token e <> t) (refreshToken u))
    [].

(** [{ $push: { refreshToken: entry, refreshHistory: retired } }] *)
Definition push_token_and_history (entry : RefreshTokenEntry)
    (retired : RefreshHistoryEntry) (u : UserDoc) : UserDoc :=
  mkUser (u_email u) (u_password u) (u_name u)
    (refreshToken u ++ [entry])
    (refreshHistory u ++ [retired]).

(** [user.password = p; user.save()]: the pre-save hook stores the hash. *)
Definition save_password `{Bcrypt} (p : string) (u : UserDoc) : UserDoc :=
  mkUser (u_email u) (bcrypt_hash p) (u_name u) (refreshToken u) (refreshHistory u).

(** [user.refreshToken = []; user.save()] *)
Definition save_no_refresh_tokens (u : UserDoc) : UserDoc :=
  mkUser (u_email u) (u_password u) (u_name u) [] (refreshHistory u).

(** ** HTTP responses *)

(** What the handler did to the [refreshToken] cookie. *)
Inductive CookieEffect : Type :=
| CookieUntouched
| CookieSet (value : Token)
| CookieCleared.

(** The JSON body: [{ error }], [{ message }], or the session body
    [{ message, accessToken, user: { id, email, name } }]. *)
Inductive Body : Type :=
| ErrorBody (error : string)
| MessageBody (message : string)
| SessionBody (message : string) (accessToken : Token) (id mail name : string).

Record Response : Type := mkResponse {
  status : Z;
  body : Body;
  cookie : CookieEffect;
}.

(** ** [src/controllers/authController.ts] *)

Definition sevenDays : Z := 7 * 24 * 60 * 60 * 1000.

(** [login]: [req.body] holds [email] and [password]. The query selects
    ["+ password"], with a space: the document comes back with its [_id]
    and [password] only. On it [user.email], [user.name] and
    [user.refreshToken] are undefined, so the tokens and the body carry no
    email and no name, the optional [push] does nothing and [save] writes
    nothing. An undefined string is written as the empty string (no stored
    email or name is empty: the schema requires both). *)
Definition login `{Bcrypt} (env : Env) (now : Z) (mail password : string) (db : DB)
  : Response * DB :=
  let invalid :=
    (mkResponse 401 (ErrorBody "Invalid credentials") CookieUntouched, db) in
  match findOne_email mail db with
  | None => invalid
  | Some (id, user) =>
      if negb (comparePassword user password) then invalid
      else
        let accessToken := generateAccessToken env now id "" in
        let refreshToken := generateRefreshToken env now id "" in
        (mkResponse 200
           (SessionBody "Login successfuly" accessToken id "" "")
           (CookieSet refreshToken),
         db)
  end.

(** [!refreshToken] on the cookie value: absent or the empty string. *)
Definition cookie_missing (c : option Token) : bool :=
  match c with
  | None => true
  | Some (Malformed raw) => bool_decide (raw = "")
  | Some (Signed _ _) => false
  end.

(** [user.refreshToken?.find((tokenObj) => tokenObj.token === refreshToken)] *)
Definition find_token (refreshTok : Token) (user : UserDoc) : option RefreshTokenEntry :=
  List.find (fun tokenObj => bool_decide (token tokenObj = refreshTok))
    (refreshToken user).

(** [user.refreshHistory?.find((t) => Date.now() - t.lastUsedAt.getTime() < 30 * 1000)] *)
Definition find_recently_used (now : Z) (user : UserDoc) : option RefreshHistoryEntry :=
  List.find (fun t => now - h_lastUsedAt t <? 30 * 1000) (refreshHistory user).

(** The tail of [refresh] once the presented token is accepted: housekeeping,
    retiring the presented token, minting and storing the new pair. *)
Definition rotate (env : Env) (now : Z) (id : string) (user : UserDoc)
    (refreshTok : Token) (db : DB) : Response * DB :=
  let sevenDaysAgo := now - sevenDays in
  let db1 := findByIdAndUpdate id (pull_created_before sevenDaysAgo) db in
  let db2 := findByIdAndUpdate id (clear_history_pull_token refreshTok) db1 in
  let newAccessToken := generateAccessToken env now id (u_email user) in
  let newRefreshToken := generateRefreshToken env now id (u_email user) in
  let db3 :=
    findByIdAndUpdate id
      (push_token_and_history
         (mkRefreshToken newRefreshToken now now)
         (mkRefreshHistory refreshTok now)) db2 in
  (mkResponse 200
     (SessionBody "Token refreshed successfully" newAccessToken
        id (u_email user) (u_name user))
     (CookieSet newRefreshToken),
   db3).

(** The branch of [refresh] for a token found neither in the ACTIVE
    collection nor covered by the grace period. *)
Definition reject_unknown (now : Z) (id : string) (decoded : TokenPayload) (db : DB)
  : Response * DB :=
  let decodedExpiry := iat decoded * 1000 + sevenDays in
  if decodedExpiry <? now then
    (* token is older than 7 days *)
    (mkResponse 401 (MessageBody "Session expired. Please log in again.")
       CookieCleared, db)
  else
    (mkResponse 403 (MessageBody "Security check failed. Please log in again.")
       CookieCleared,
     findByIdAndUpdate id (set_empty_array "refrehToken") db).

(** [refresh]: [req.cookies.refreshToken] is the presented token. *)
Definition refresh (env : Env) (now : Z) (presented : option Token) (db : DB)
  : Response * DB :=
  match presented with
  | None =>
      (mkResponse 401 (ErrorBody "No refresh token provided") CookieUntouched, db)
  | Some refreshTok =>
    if cookie_missing presented then
      (mkResponse 401 (ErrorBody "No refresh token provided") CookieUntouched, db)
    else
    match verifyRefreshToken env now refreshTok with
    | Throw _ =>
        (* the catch block *)
        (mkResponse 500 (MessageBody "Server error during token refresh")
           CookieCleared, db)
    | Ok decoded =>
      let id := userId decoded in
      match findById id db with
      | None => (mkResponse 403 (MessageBody "User not found.") CookieCleared, db)
      | Some user =>
        let tokenData := find_token refreshTok user in
        match tokenData with
        | Some _ => rotate env now id user refreshTok db
        | None =>
            let recentlyUsed := find_recently_used now user in
            match recentlyUsed with
            | Some _ => (* Grace reuse period *)
                rotate env now id user refreshTok db
            | None => reject_unknown now id decoded db
            end
        end
      end
    end
  end.

(** ** User controller: [updatePassword] *)

(** [req.user.id] is [id]; [req.body] holds the two passwords. *)
Definition updatePassword `{Bcrypt} (id : string) (currentPassword newPassword : string)
    (db : DB) : Response * DB :=
  match findById id db with
  | None => (mkResponse 404 (ErrorBody "User not found") CookieUntouched, db)
  | Some user =>
      if negb (comparePassword user currentPassword) then
        (mkResponse 401 (ErrorBody "Current password is incorrect") CookieUntouched, db)
      else
        let db1 := findByIdAndUpdate id (save_password newPassword) db in
        let db2 := findByIdAndUpdate id save_no_refresh_tokens db1 in
        (mkResponse 200
           (MessageBody "Password updated succesfully. Please log in again.")
           CookieUntouched,
         db2)
  end.

(** ** User controller: [deleteUser] *)

(** [req.user.id] is [id]; [req.body.password] may be absent. *)
Definition deleteUser `{Bcrypt} (id : string) (password : option string) (db : DB)
  : Response * DB :=
  let required :=
    (mkResponse 400 (ErrorBody "Password is required to delete account.")
       CookieUntouched, db) in
  match password with
  | None => required
  | Some password =>
    (* [!password] *)
    if decide (password = "") then required
    else
    match findById id db with
    | None => (mkResponse 400 (ErrorBody "User not found") CookieUntouched, db)
    | Some user =>
        let isPasswordValid := comparePassword user password in
        if negb isPasswordValid then
          (mkResponse 401 (ErrorBody "Password is incorect") CookieUntouched, db)
        else
          (* [User.findByIdAndDelete(user._id)] *)
          (mkResponse 200 (MessageBody "Account deleted successfully") CookieCleared,
           delete id db)
    end
  end.

(** ** The [authenticate] middleware *)

(** The [Authorization] header: absent, the string ["Bearer "] followed by
    a token, or any other string (one that does not start with
    ["Bearer "], the empty string included). *)
Inductive AuthorizationHeader : Type :=
| NoAuthorization
| Bearer (token : Token)
| OtherAuthorization (value : string).

(** [req.user], without the document's timestamps, which the model of the
    user document leaves out. *)
Record RequestUser : Type := mkRequestUser {
  ru_id : string;
  ru_email : string;
  ru_name : string;
}.

(** What a middleware does: hand the request on with [req.user] set, or
    answer it. *)
Inductive Gate : Type :=
| Next (user : RequestUser)
| Respond (response : Response).

Definition authenticate (env : Env) (now : Z) (authHeader : AuthorizationHeader)
    (db : DB) : Gate :=
  match authHeader with
  | NoAuthorization | OtherAuthorization _ =>
      Respond (mkResponse 401 (ErrorBody "No token provided") CookieUntouched)
  | Bearer token =>
      match verifyAccessToken env now token with
      | Throw _ =>
          (* the catch block *)
          Respond (mkResponse 401 (ErrorBody "Invalid or expired token") CookieUntouched)
      | Ok decoded =>
          match findById (userId decoded) db with
          | None => Respond (mkResponse 401 (MessageBody "Unauthorized") CookieUntouched)
          | Some user =>
              Next (mkRequestUser (userId decoded) (u_email user) (u_name user))
          end
      end
  end.

(** The fields of a document that no refresh-token operation is meant to
    touch. *)
Definition account_fields (u : UserDoc) : string * string * string :=
  (u_email u, u_password u, u_name u).

(** ** Observations on a database *)

(** The token strings of a user's ACTIVE collection. *)
Definition active_tokens (id : string) (db : DB) : list Token :=
  match db !! id with
  | Some u => token <$> refreshToken u
  | None => []
  end.

(** A stand-in for [bcryptjs] to run the handlers on concrete inputs: the
    hash is the tagged plaintext. *)
Definition plain_bcrypt : Bcrypt :=
  {| bcrypt_hash := fun p => "$2a$10$" +:+ p;
     bcrypt_compare := fun candidate stored =>
       bool_decide ("$2a$10$" +:+ candidate = stored) |}.

(** The state a successful rotation leaves the user's document in. *)
Definition rotated (env : Env) (now : Z) (id : string) (refreshTok : Token)
    (u : UserDoc) : UserDoc :=
  push_token_and_history
    (mkRefreshToken (generateRefreshToken env now id (u_email u)) now now)
    (mkRefreshHistory refreshTok now)
    (clear_history_pull_token refreshTok
       (pull_created_before (now - sevenDays) u)).

(** What [authenticate] reads of a document. *)
Definition public_profile (u : UserDoc) : string * string := (u_email u, u_name u).

(** The paths through [refresh], each with the outcome it returns. *)
Inductive RefreshPath (env : Env) (now : Z) (presented : option Token) (db : DB)
  : Response * DB -> Prop :=
| path_no_cookie :
    cookie_missing presented = true ->
    RefreshPath env now presented db
      (mkResponse 401 (ErrorBody "No refresh token provided") CookieUntouched, db)
| path_caught tok e :
    presented = Some tok ->
    cookie_missing presented = false ->
    verifyRefreshToken env now tok = Throw e ->
    RefreshPath env now presented db
      (mkResponse 500 (MessageBody "Server error during token refresh")
         CookieCleared, db)
| path_no_user tok d :
    presented = Some tok ->
    verifyRefreshToken env now tok = Ok d ->
    db !! userId d = None ->
    RefreshPath env now presented db
      (mkResponse 403 (MessageBody "User not found.") CookieCleared, db)
| path_rotate tok d user :
    presented = Some tok ->
    verifyRefreshToken env now tok = Ok d ->
    db !! userId d = Some user ->
    is_Some (find_token tok user) \/ is_Some (find_recently_used now user) ->
    RefreshPath env now presented db (rotate env now (userId d) user tok db)
| path_reject tok d user :
    presented = Some tok ->
    verifyRefreshToken env now tok = Ok d ->
    db !! userId d = Some user ->
    find_token tok user = None ->
    find_recently_used now user = None ->
    RefreshPath env now presented db (reject_unknown now (userId d) d db).

(** ** Concrete runs *)

Module Scenario.

Definition day : Z := 24 * 60 * 60 * 1000.

(** The refresh token minted for Ann at instant [t]. *)
Definition issued (t : Z) : Token := generateRefreshToken default_env t "u1" "ann@x.com".

(** Ann's document as [register] leaves it at instant 0: one active refresh
    token, no history. *)
Definition ann : UserDoc :=
  mkUser "ann@x.com" "$2a$10$pw123456" "Ann" [mkRefreshToken (issued 0) 0 0] [].
Definition signed_up : DB := {[ "u1" := ann ]}.

(** Ann rotates her first token at 10 s ... *)
Definition rotated_once : DB :=
  (refresh default_env 10000 (Some (issued 0)) signed_up).2.

(** ... and the token of that rotation at 50 s. *)
Definition rotated_twice : DB :=
  (refresh default_env 50000 (Some (issued 10000)) rotated_once).2.

(** After her first rotation Ann changes her password. *)
Definition password_changed : DB :=
  (updatePassword (H := plain_bcrypt) "u1" "pw123456" "pw654321" rotated_once).2.

(** An environment whose refresh tokens live 30 days, and a refresh token
    made for Ann under it at instant 0. *)
Definition long_env : Env := mkEnv None None None (Some (30 * 24 * 60 * 60)).
Definition long_token : Token := generateRefreshToken long_env 0 "u1" "ann@x.com".

End Scenario.

(** ** Token codec *)

Lemma verify_sign_same_secret now t uid mail secret expiresIn :
  Jwt.verify now (Jwt.sign t uid mail secret expiresIn) secret =
  if now / 1000 <? t / 1000 + expiresIn
  then Ok (mkPayload uid mail (t / 1000) (t / 1000 + expiresIn))
  else Throw TokenExpiredError.
Proof.
  unfold Jwt.verify, Jwt.sign. cbn.
  rewrite decide_True by reflexivity.
  rewrite Z.geb_leb.
  destruct (Z.leb_spec (t / 1000 + expiresIn) (now / 1000));
    destruct (Z.ltb_spec (now / 1000) (t / 1000 + expiresIn)); (reflexivity || lia).
Qed.

Lemma verify_sign_other_secret now t uid mail secret secret' expiresIn :
  secret <> secret' ->
  Jwt.verify now (Jwt.sign t uid mail secret expiresIn) secret' =
  Throw (JsonWebTokenError "invalid signature").
Proof.
  intros Hne. unfold Jwt.verify, Jwt.sign.
  rewrite decide_False by exact Hne. reflexivity.
Qed.

(** C9. A token issued for a subject verifies, under its own kind, to the
    same subject id and email for as long as the clock (in seconds) is
    below its expiry, and is rejected as expired from the expiry second on;
    with distinct access and refresh secrets, a token of one kind is
    rejected under the other kind's verification at every instant. *)
Theorem token_codec_roundtrip_and_kinds
    (env : Env) (t now : Z) (uid mail : string)
    (Hsecrets : access_secret env <> refresh_secret env) :
  verifyAccessToken env now (generateAccessToken env t uid mail) =
    (if now / 1000 <? t / 1000 + access_expiry env
     then Ok (mkPayload uid mail (t / 1000) (t / 1000 + access_expiry env))
     else Throw TokenExpiredError)
  /\ verifyRefreshToken env now (generateRefreshToken env t uid mail) =
    (if now / 1000 <? t / 1000 + refresh_expiry env
     then Ok (mkPayload uid mail (t / 1000) (t / 1000 + refresh_expiry env))
     else Throw TokenExpiredError)
  /\ verifyRefreshToken env now (generateAccessToken env t uid mail) =
       Throw (JsonWebTokenError "invalid signature")
  /\ verifyAccessToken env now (generateRefreshToken env t uid mail) =
       Throw (JsonWebTokenError "invalid signature").
Proof.
  unfold verifyAccessToken, verifyRefreshToken,
    generateAccessToken, generateRefreshToken.
  repeat split.
  - apply verify_sign_same_secret.
  - apply verify_sign_same_secret.
  - apply verify_sign_other_secret. exact Hsecrets.
  - apply verify_sign_other_secret. congruence.
Qed.

Lemma token_codec_roundtrip_and_kinds_witness :
  access_secret default_env <> refresh_secret default_env
  /\ verifyRefreshToken default_env 5000
       (generateRefreshToken default_env 1000 "u1" "ann@x.com")
     = Ok (mkPayload "u1" "ann@x.com" 1 604801)
  /\ verifyRefreshToken default_env 5000
       (generateAccessToken default_env 1000 "u1" "ann@x.com")
     = Throw (JsonWebTokenError "invalid signature").
Proof.
  assert (Hne : access_secret default_env <> refresh_secret default_env)
    by (vm_compute; discriminate).
  split; [exact Hne|].
  pose proof (token_codec_roundtrip_and_kinds default_env 1000 5000
                "u1" "ann@x.com" Hne) as (_ & Hr & Hx & _).
  split; [exact Hr | exact Hx].
Defined.

(** ** The document store *)

Lemma findByIdAndUpdate_lookup id f (db : DB) u :
  db !! id = Some u -> findByIdAndUpdate id f db !! id = Some (f u).
Proof.
  intros Hu. unfold findByIdAndUpdate. rewrite lookup_alter_eq, Hu. reflexivity.
Qed.

Lemma findByIdAndUpdate_other id j f (db : DB) :
  id <> j -> findByIdAndUpdate id f db !! j = db !! j.
Proof. intros Hne. unfold findByIdAndUpdate. apply lookup_alter_ne, Hne. Qed.

(** The update of the reuse branch names a path the schema does not have. *)
Lemma set_empty_array_refrehToken u : set_empty_array "refrehToken" u = u.
Proof. reflexivity. Qed.

Lemma findByIdAndUpdate_refrehToken id (db : DB) :
  findByIdAndUpdate id (set_empty_array "refrehToken") db = db.
Proof.
  unfold findByIdAndUpdate. apply alter_id.
  intros u _. apply set_empty_array_refrehToken.
Qed.

Lemma findOne_email_Some mail (db : DB) id u :
  findOne_email mail db = Some (id, u) -> db !! id = Some u /\ u_email u = mail.
Proof.
  unfold findOne_email. intros Hf.
  apply List.find_some in Hf as [Hin Hmail].
  apply list_elem_of_In, elem_of_map_to_list in Hin.
  apply bool_decide_eq_true in Hmail. auto.
Qed.

Lemma findOne_email_None mail (db : DB) :
  (forall id u, db !! id = Some u -> u_email u <> mail) ->
  findOne_email mail db = None.
Proof.
  intros Habs. unfold findOne_email.
  destruct (List.find _ _) as [[id u]|] eqn:Hf; [|reflexivity].
  apply findOne_email_Some in Hf as [Hu Hmail].
  exfalso. exact (Habs id u Hu Hmail).
Qed.

(** ** The two lookups of [refresh] *)

Lemma find_token_None tok u :
  tok ∉ token <$> refreshToken u -> find_token tok u = None.
Proof.
  intros Habs. unfold find_token.
  destruct (List.find _ _) as [e|] eqn:Hf; [|reflexivity].
  apply List.find_some in Hf as [Hin Htok].
  apply bool_decide_eq_true in Htok. subst tok.
  exfalso. apply Habs. apply list_elem_of_fmap_2, list_elem_of_In, Hin.
Qed.

Lemma find_token_Some tok u :
  tok ∈ token <$> refreshToken u -> is_Some (find_token tok u).
Proof.
  intros Hin. unfold find_token.
  destruct (List.find _ _) as [e|] eqn:Hf; [eauto|].
  exfalso. apply list_elem_of_fmap in Hin as (e & -> & He).
  apply list_elem_of_In in He.
  pose proof (List.find_none _ _ Hf e He) as Hb. cbn in Hb.
  apply bool_decide_eq_false in Hb. apply Hb. reflexivity.
Qed.

(** A token that verifies is a signed one, so the cookie is not taken for a
    missing one. *)
Lemma verify_Ok_cookie env now tok d :
  verifyRefreshToken env now tok = Ok d ->
  cookie_missing (Some tok) = false /\ tok = Signed (refresh_secret env) d.
Proof.
  unfold verifyRefreshToken, Jwt.verify. destruct tok as [key p|raw]; [|discriminate].
  destruct (decide (key = refresh_secret env)) as [->|]; [|discriminate].
  destruct (now / 1000 >=? exp p); [discriminate|].
  intros [= ->]. split; reflexivity.
Qed.

(** Verification only becomes harder as the clock advances. *)
Lemma verify_Ok_earlier env now now' tok d :
  now' <= now ->
  verifyRefreshToken env now tok = Ok d ->
  verifyRefreshToken env now' tok = Ok d.
Proof.
  intros Hle. unfold verifyRefreshToken, Jwt.verify.
  destruct tok as [key p|raw]; [|discriminate].
  destruct (decide (key = refresh_secret env)); [|discriminate].
  rewrite !Z.geb_leb.
  destruct (Z.leb_spec (exp p) (now / 1000)); [discriminate|].
  intros [= ->].
  assert (now' / 1000 <= now / 1000) by (apply Z.div_le_mono; lia).
  destruct (Z.leb_spec (exp d) (now' / 1000)); [lia|reflexivity].
Qed.

(** ** The branches of [refresh] *)

Section RefreshBranches.

Context (env : Env) (now : Z) (tok : Token) (db : DB).

Lemma refresh_verification_throws e :
  cookie_missing (Some tok) = false ->
  verifyRefreshToken env now tok = Throw e ->
  refresh env now (Some tok) db =
    (mkResponse 500 (MessageBody "Server error during token refresh")
       CookieCleared, db).
Proof. intros Hc Hv. unfold refresh. rewrite Hc, Hv. reflexivity. Qed.

Context (d : TokenPayload) (Hverify : verifyRefreshToken env now tok = Ok d).

Lemma refresh_user_not_found :
  db !! userId d = None ->
  refresh env now (Some tok) db =
    (mkResponse 403 (MessageBody "User not found.") CookieCleared, db).
Proof.
  intros Hu. destruct (verify_Ok_cookie _ _ _ _ Hverify) as [Hc _].
  unfold refresh, findById. rewrite Hc, Hverify. cbn zeta. rewrite Hu. reflexivity.
Qed.

Context (user : UserDoc) (Huser : db !! userId d = Some user).

Lemma refresh_token_active :
  is_Some (find_token tok user) ->
  refresh env now (Some tok) db = rotate env now (userId d) user tok db.
Proof.
  intros [e He]. destruct (verify_Ok_cookie _ _ _ _ Hverify) as [Hc _].
  unfold refresh, findById. rewrite Hc, Hverify. cbn zeta. rewrite Huser, He.
  reflexivity.
Qed.

Lemma refresh_grace :
  is_Some (find_recently_used now user) ->
  refresh env now (Some tok) db = rotate env now (userId d) user tok db.
Proof.
  intros [h Hh]. destruct (verify_Ok_cookie _ _ _ _ Hverify) as [Hc _].
  unfold refresh, findById. rewrite Hc, Hverify. cbn zeta. rewrite Huser, Hh.
  destruct (find_token tok user); reflexivity.
Qed.

Lemma refresh_unknown_token :
  find_token tok user = None ->
  find_recently_used now user = None ->
  refresh env now (Some tok) db = reject_unknown now (userId d) d db.
Proof.
  intros Ht Hh. destruct (verify_Ok_cookie _ _ _ _ Hverify) as [Hc _].
  unfold refresh, findById. rewrite Hc, Hverify. cbn zeta. rewrite Huser, Ht, Hh.
  reflexivity.
Qed.

End RefreshBranches.

Lemma reject_unknown_expired now id d (db : DB) :
  iat d * 1000 + sevenDays < now ->
  reject_unknown now id d db =
    (mkResponse 401 (MessageBody "Session expired. Please log in again.")
       CookieCleared, db).
Proof.
  intros Hlt. unfold reject_unknown.
  destruct (Z.ltb_spec (iat d * 1000 + sevenDays) now); [reflexivity|lia].
Qed.

Lemma reject_unknown_reuse now id d (db : DB) :
  now <= iat d * 1000 + sevenDays ->
  reject_unknown now id d db =
    (mkResponse 403 (MessageBody "Security check failed. Please log in again.")
       CookieCleared, db).
Proof.
  intros Hle. unfold reject_unknown.
  destruct (Z.ltb_spec (iat d * 1000 + sevenDays) now); [lia|].
  rewrite findByIdAndUpdate_refrehToken. reflexivity.
Qed.

(** Whatever the age of a token that is neither active nor covered by
    the grace period, the database is left as it was. *)
Lemma reject_unknown_store now id d (db : DB) :
  (reject_unknown now id d db).2 = db.
Proof.
  unfold reject_unknown. destruct (_ <? _); cbn [snd]; [reflexivity|].
  apply findByIdAndUpdate_refrehToken.
Qed.

Lemma rotate_lookup env now id tok (db : DB) u :
  db !! id = Some u ->
  (rotate env now id u tok db).2 !! id = Some (rotated env now id tok u).
Proof.
  intros Hu. unfold rotate, rotated. cbn [snd].
  erewrite findByIdAndUpdate_lookup; [reflexivity|].
  erewrite findByIdAndUpdate_lookup; [reflexivity|].
  erewrite findByIdAndUpdate_lookup; [reflexivity|exact Hu].
Qed.

Lemma find_recently_used_None now u :
  Forall (fun h => 30 * 1000 <= now - h_lastUsedAt h) (refreshHistory u) ->
  find_recently_used now u = None.
Proof.
  intros Hall. unfold find_recently_used.
  destruct (List.find _ _) as [h|] eqn:Hf; [|reflexivity].
  apply List.find_some in Hf as [Hin Hlt].
  rewrite Forall_forall in Hall.
  apply list_elem_of_In, Hall in Hin.
  apply Z.ltb_lt in Hlt. lia.
Qed.

(** ** Reuse detection *)

(** C1. Ann holds the refresh token issued at 0 s and rotates it at 10 s.
    That first token, replayed at 100 s, verifies, belongs to an existing
    user, is not in the ACTIVE collection, is covered by no recent history
    entry and is younger than 7 days: the handler answers 403 and clears
    the cookie, but the ACTIVE collection still holds the token of the
    rotation, and that token rotates successfully afterwards. *)
Theorem reuse_detected_leaves_active_tokens :
  let stale := Scenario.issued 0 in
  let current := Scenario.issued 10000 in
  let outcome := refresh default_env 100000 (Some stale) Scenario.rotated_once in
  active_tokens "u1" Scenario.rotated_once = [current]
  /\ outcome.1 =
       mkResponse 403 (MessageBody "Security check failed. Please log in again.")
         CookieCleared
  /\ active_tokens "u1" outcome.2 = [current]
  /\ status (refresh default_env 101000 (Some current) outcome.2).1 = 200.
Proof. vm_compute. repeat split; reflexivity. Qed.

(** C2. Ann holds the refresh token issued at 0 s, rotates it at 10 s and
    rotates the token of that rotation at 50 s, so the history holds the
    10 s token, retired at 50 s. The 0 s token, a different string absent
    from the ACTIVE collection, presented at 60 s is taken for a grace
    reuse and answered with a new pair. *)
Theorem grace_granted_on_other_token :
  let stale := Scenario.issued 0 in
  let outcome := refresh default_env 60000 (Some stale) Scenario.rotated_twice in
  active_tokens "u1" Scenario.rotated_twice = [Scenario.issued 50000]
  /\ refreshHistory <$> Scenario.rotated_twice !! "u1" =
       Some [mkRefreshHistory (Scenario.issued 10000) 50000]
  /\ stale <> Scenario.issued 10000
  /\ outcome.1 =
       mkResponse 200
         (SessionBody "Token refreshed successfully"
            (generateAccessToken default_env 60000 "u1" "ann@x.com")
            "u1" "ann@x.com" "Ann")
         (CookieSet (Scenario.issued 60000))
  /\ active_tokens "u1" outcome.2 = [Scenario.issued 50000; Scenario.issued 60000].
Proof. vm_compute. repeat split; (reflexivity || discriminate). Qed.

(** ** Password change *)

(** C4. Ann holds the refresh token issued at 0 s, rotates it at 10 s and
    then changes her password. The ACTIVE collection is emptied, the
    history still holds the entry of the rotation, and at 20 s both refresh
    tokens issued before the change are answered with a new pair. *)
Theorem password_change_keeps_history :
  let changed := Scenario.password_changed in
  (updatePassword (H := plain_bcrypt) "u1" "pw123456" "pw654321"
     Scenario.rotated_once).1 =
    mkResponse 200 (MessageBody "Password updated succesfully. Please log in again.")
      CookieUntouched
  /\ active_tokens "u1" changed = []
  /\ refreshHistory <$> changed !! "u1" =
       Some [mkRefreshHistory (Scenario.issued 0) 10000]
  /\ status (refresh default_env 20000 (Some (Scenario.issued 10000)) changed).1 = 200
  /\ status (refresh default_env 20000 (Some (Scenario.issued 0)) changed).1 = 200.
Proof. vm_compute. repeat split; reflexivity. Qed.

(** C10. When the user exists and the supplied current password does not
    match the stored hash, [updatePassword] answers 401 and the database,
    hence the user's hash, ACTIVE collection and history, is left as it
    was. *)
Theorem updatePassword_wrong_password `{Bcrypt}
    (id currentPassword newPassword : string) (db : DB) (user : UserDoc) :
  db !! id = Some user ->
  comparePassword user currentPassword = false ->
  updatePassword id currentPassword newPassword db =
    (mkResponse 401 (ErrorBody "Current password is incorrect") CookieUntouched, db).
Proof.
  intros Hu Hcmp. unfold updatePassword, findById. rewrite Hu, Hcmp. reflexivity.
Qed.

Lemma updatePassword_wrong_password_witness :
  Scenario.rotated_once !! "u1" =
    Some (rotated default_env 10000 "u1" (Scenario.issued 0)
            Scenario.ann)
  /\ updatePassword (H := plain_bcrypt) "u1" "guess" "pw654321" Scenario.rotated_once =
       (mkResponse 401 (ErrorBody "Current password is incorrect") CookieUntouched,
        Scenario.rotated_once).
Proof.
  assert (Hu : Scenario.rotated_once !! "u1" =
    Some (rotated default_env 10000 "u1" (Scenario.issued 0)
            Scenario.ann))
    by (vm_compute; reflexivity).
  split; [exact Hu|].
  apply (updatePassword_wrong_password (H := plain_bcrypt) "u1" "guess" "pw654321"
           Scenario.rotated_once _ Hu).
  vm_compute. reflexivity.
Defined.

(** ** Failures of [refresh] *)

(** C5. Ann's refresh token issued at 0 s and presented 8 days later is
    rejected by verification as expired, and a token signed with a foreign
    key as having an invalid signature; in both cases the handler answers
    500, clears the cookie and leaves the database as it was. *)
Theorem refresh_verification_failure_is_500 :
  let forged := Signed "guessed-secret" (mkPayload "u1" "ann@x.com" 0 604800) in
  let server_error :=
    mkResponse 500 (MessageBody "Server error during token refresh") CookieCleared in
  verifyRefreshToken default_env (8 * Scenario.day) (Scenario.issued 0) =
    Throw TokenExpiredError
  /\ refresh default_env (8 * Scenario.day) (Some (Scenario.issued 0)) Scenario.signed_up =
       (server_error, Scenario.signed_up)
  /\ verifyRefreshToken default_env 5000 forged =
       Throw (JsonWebTokenError "invalid signature")
  /\ refresh default_env 5000 (Some forged) Scenario.signed_up =
       (server_error, Scenario.signed_up).
Proof. vm_compute. repeat split; reflexivity. Qed.

(** The branch for a stale token, when it is reached: a presented token
    that verifies, whose user exists, that is not in the user's ACTIVE
    collection while no history entry was stamped within the last 30
    seconds, and whose issue time plus 7 days lies before now, is answered
    401 "Session expired" with the cookie cleared and nothing written.
    Reaching it takes a token that still verifies after 7 days, that is a
    configured lifetime above 7 days. *)
Lemma refresh_session_expired
    (env : Env) (now : Z) (tok : Token) (db : DB) (d : TokenPayload) (user : UserDoc) :
  verifyRefreshToken env now tok = Ok d ->
  db !! userId d = Some user ->
  tok ∉ token <$> refreshToken user ->
  Forall (fun h => 30 * 1000 <= now - h_lastUsedAt h) (refreshHistory user) ->
  iat d * 1000 + sevenDays < now ->
  refresh env now (Some tok) db =
    (mkResponse 401 (MessageBody "Session expired. Please log in again.")
       CookieCleared, db).
Proof.
  intros Hv Hu Hactive Hhist Hage.
  rewrite (refresh_unknown_token env now tok db d Hv user Hu).
  - apply reject_unknown_expired, Hage.
  - apply find_token_None, Hactive.
  - apply find_recently_used_None, Hhist.
Qed.

(** Under a 30-day lifetime the branch is reached by a token 8 days old. *)
Lemma refresh_session_expired_reachable :
  refresh Scenario.long_env (8 * Scenario.day) (Some Scenario.long_token)
    Scenario.signed_up =
    (mkResponse 401 (MessageBody "Session expired. Please log in again.")
       CookieCleared, Scenario.signed_up).
Proof. vm_compute. reflexivity. Qed.

(** C6. Ann holds the refresh token issued at 0 s and rotates it at 10 s.
    Presented 8 days later, that first token is past its 7-day lifetime,
    is not in the ACTIVE collection and the only history entry is 8 days
    old. Verification rejects it as expired before the age test of the
    handler is reached, and the answer is 500 "Server error during token
    refresh", not 401 "Session expired"; the cookie is cleared and the
    token of the rotation stays active. *)
Theorem stale_session_is_server_error :
  let stale := Scenario.issued 0 in
  let now := 8 * Scenario.day in
  let outcome := refresh default_env now (Some stale) Scenario.rotated_once in
  stale = Signed "refresh-secret" (mkPayload "u1" "ann@x.com" 0 604800)
  /\ 0 * 1000 + sevenDays < now
  /\ active_tokens "u1" Scenario.rotated_once = [Scenario.issued 10000]
  /\ refreshHistory <$> Scenario.rotated_once !! "u1" =
       Some [mkRefreshHistory stale 10000]
  /\ verifyRefreshToken default_env now stale = Throw TokenExpiredError
  /\ outcome.1 =
       mkResponse 500 (MessageBody "Server error during token refresh") CookieCleared
  /\ status outcome.1 <> 401
  /\ outcome.2 = Scenario.rotated_once.
Proof. vm_compute. repeat split; (reflexivity || discriminate). Qed.

(** C7 as stated fails: a token that verifies for a subject with no
    document is answered 403, not 401. *)
Lemma refresh_unknown_user_is_not_401 :
  let ghost := generateRefreshToken default_env 0 "u404" "bob@x.com" in
  let outcome := refresh default_env 5000 (Some ghost) Scenario.signed_up in
  verifyRefreshToken default_env 5000 ghost =
    Ok (mkPayload "u404" "bob@x.com" 0 604800)
  /\ Scenario.signed_up !! "u404" = None
  /\ status outcome.1 = 403
  /\ status outcome.1 <> 401.
Proof. vm_compute. repeat split; (reflexivity || discriminate). Qed.

(** C7, amended. A presented token that verifies but whose subject id has
    no document is answered 403 "User not found.", the cookie is cleared
    and the database is left as it was. *)
Theorem refresh_unknown_user_forbidden
    (env : Env) (now : Z) (tok : Token) (db : DB) (d : TokenPayload) :
  verifyRefreshToken env now tok = Ok d ->
  db !! userId d = None ->
  refresh env now (Some tok) db =
    (mkResponse 403 (MessageBody "User not found.") CookieCleared, db).
Proof. intros Hv Hu. exact (refresh_user_not_found env now tok db d Hv Hu). Qed.

Lemma refresh_unknown_user_forbidden_witness :
  refresh default_env 5000
    (Some (generateRefreshToken default_env 0 "u404" "bob@x.com")) Scenario.signed_up =
    (mkResponse 403 (MessageBody "User not found.") CookieCleared, Scenario.signed_up).
Proof.
  apply (refresh_unknown_user_forbidden default_env 5000 _ Scenario.signed_up
           (mkPayload "u404" "bob@x.com" 0 604800)).
  - vm_compute. reflexivity.
  - vm_compute. reflexivity.
Defined.

(** ** Login *)

(** C8. When no document has the submitted email, or the document found
    does not match the submitted password, [login] gives one and the same
    answer, 401 with the error "Invalid credentials", sets no cookie and
    leaves the database, hence every user's refresh-token entries, as it
    was. *)
Theorem login_invalid_credentials `{Bcrypt}
    (env : Env) (now : Z) (mail password : string) (db : DB) :
  (forall id u, db !! id = Some u -> u_email u <> mail)
  \/ (exists id u, findOne_email mail db = Some (id, u)
                   /\ comparePassword u password = false) ->
  login env now mail password db =
    (mkResponse 401 (ErrorBody "Invalid credentials") CookieUntouched, db).
Proof.
  intros [Habsent | (id & u & Hfound & Hcmp)]; unfold login.
  - rewrite (findOne_email_None _ _ Habsent). reflexivity.
  - rewrite Hfound, Hcmp. reflexivity.
Qed.

Lemma login_invalid_credentials_witness :
  login (H := plain_bcrypt) default_env 5000 "ann@x.com" "guess" Scenario.signed_up =
    (mkResponse 401 (ErrorBody "Invalid credentials") CookieUntouched, Scenario.signed_up)
  /\ login (H := plain_bcrypt) default_env 5000 "bob@x.com" "pw123456" Scenario.signed_up =
    (mkResponse 401 (ErrorBody "Invalid credentials") CookieUntouched, Scenario.signed_up).
Proof.
  split.
  - apply (login_invalid_credentials (H := plain_bcrypt)). right.
    exists "u1", Scenario.ann.
    split; vm_compute; reflexivity.
  - apply (login_invalid_credentials (H := plain_bcrypt)). left.
    intros id u Hu.
    unfold Scenario.signed_up in Hu.
    apply lookup_singleton_Some in Hu as [_ <-].
    vm_compute. discriminate.
Defined.

(** ** Rotating the same token twice *)

Lemma rotated_tokens env now id T u :
  refreshToken (rotated env now id T u) =
  (filter (fun e => token e <> T)
     (filter (fun e => ~ createdAt e < now - sevenDays) (refreshToken u))
   ++ [mkRefreshToken (generateRefreshToken env now id (u_email u)) now now])%list.
Proof. reflexivity. Qed.

Lemma rotated_history env now id T u :
  refreshHistory (rotated env now id T u) = [mkRefreshHistory T now].
Proof. reflexivity. Qed.

(** A refresh token minted in a later second than [d] was is not the token
    carrying [d]. *)
Lemma minted_later_differs env now id mail secret d :
  iat d < now / 1000 ->
  generateRefreshToken env now id mail <> Signed secret d.
Proof.
  intros Hlt Heq. unfold generateRefreshToken, Jwt.sign in Heq.
  injection Heq as _ <-. cbn in Hlt. lia.
Qed.

Lemma minted_pair_verifies env now id mail :
  0 < access_expiry env -> 0 < refresh_expiry env ->
  verifyAccessToken env now (generateAccessToken env now id mail) =
    Ok (mkPayload id mail (now / 1000) (now / 1000 + access_expiry env))
  /\ verifyRefreshToken env now (generateRefreshToken env now id mail) =
    Ok (mkPayload id mail (now / 1000) (now / 1000 + refresh_expiry env)).
Proof.
  intros Ha Hr.
  unfold verifyAccessToken, verifyRefreshToken, generateAccessToken, generateRefreshToken.
  rewrite !verify_sign_same_secret.
  destruct (Z.ltb_spec (now / 1000) (now / 1000 + access_expiry env)); [|lia].
  destruct (Z.ltb_spec (now / 1000) (now / 1000 + refresh_expiry env)); [|lia].
  split; reflexivity.
Qed.

(** C3 as stated fails: Ann presents her only active refresh token, issued
    at 0 s, at 10 s and again at 12 s; both calls succeed, and the ACTIVE
    collection then holds the two tokens minted by the two calls, not one
    entry. *)
Lemma double_rotation_leaves_two_active :
  let T := Scenario.issued 0 in
  let first := refresh default_env 10000 (Some T) Scenario.signed_up in
  let second := refresh default_env 12000 (Some T) (first.2) in
  active_tokens "u1" Scenario.signed_up = [T]
  /\ status first.1 = 200
  /\ status second.1 = 200
  /\ active_tokens "u1" second.2 = [Scenario.issued 10000; Scenario.issued 12000]
  /\ length (active_tokens "u1" second.2) <> 1%nat.
Proof. vm_compute. repeat split; (reflexivity || discriminate). Qed.

(** C3, amended. Let T be in a user's ACTIVE collection, issued in an
    earlier clock second than the first call. If T is presented at [t1]
    and again at [t2], less than 30 s later and while it still verifies,
    both calls succeed and each yields a new pair that verifies (token
    lifetimes being positive). After the second call the ACTIVE collection
    consists of earlier entries other than T followed by the two refresh
    tokens just minted, so T is gone and two entries remain when T was the
    only one. A third call with T, 30 s or more after the second, does not
    succeed and clears the cookie. *)
Theorem rotate_twice_within_grace
    (env : Env) (db : DB) (T : Token) (d : TokenPayload) (user : UserDoc)
    (t1 t2 t3 : Z) :
  verifyRefreshToken env t2 T = Ok d ->
  db !! userId d = Some user ->
  T ∈ active_tokens (userId d) db ->
  iat d < t1 / 1000 ->
  t1 <= t2 < t1 + 30 * 1000 ->
  t2 + 30 * 1000 <= t3 ->
  0 < access_expiry env ->
  0 < refresh_expiry env ->
  let id := userId d in
  let first := refresh env t1 (Some T) db in
  let second := refresh env t2 (Some T) (first.2) in
  let third := refresh env t3 (Some T) (second.2) in
  let access1 := generateAccessToken env t1 id (u_email user) in
  let refresh1 := generateRefreshToken env t1 id (u_email user) in
  let access2 := generateAccessToken env t2 id (u_email user) in
  let refresh2 := generateRefreshToken env t2 id (u_email user) in
  (first.1 =
     mkResponse 200
       (SessionBody "Token refreshed successfully" access1 id (u_email user) (u_name user))
       (CookieSet refresh1)
   /\ verifyAccessToken env t1 access1 =
        Ok (mkPayload id (u_email user) (t1 / 1000) (t1 / 1000 + access_expiry env))
   /\ verifyRefreshToken env t1 refresh1 =
        Ok (mkPayload id (u_email user) (t1 / 1000) (t1 / 1000 + refresh_expiry env)))
  /\ (second.1 =
        mkResponse 200
          (SessionBody "Token refreshed successfully" access2 id (u_email user) (u_name user))
          (CookieSet refresh2)
      /\ verifyAccessToken env t2 access2 =
           Ok (mkPayload id (u_email user) (t2 / 1000) (t2 / 1000 + access_expiry env))
      /\ verifyRefreshToken env t2 refresh2 =
           Ok (mkPayload id (u_email user) (t2 / 1000) (t2 / 1000 + refresh_expiry env)))
  /\ (exists rest,
        active_tokens id (second.2) = (rest ++ [refresh1; refresh2])%list
        /\ (T ∉ rest)
        /\ (forall x, x ∈ rest -> x ∈ active_tokens id db)
        /\ (active_tokens id db = [T] -> rest = []))
  /\ (T ∉ active_tokens id (second.2))
  /\ (status (third.1) <> 200 /\ cookie (third.1) = CookieCleared).
Proof.
  intros Hv2 Hu Hin Hiat [Hle Hgrace] Hlate Hacc Href id.
  unfold active_tokens in Hin. fold id in Hu, Hin. rewrite Hu in Hin.
  assert (Hv1 : verifyRefreshToken env t1 T = Ok d)
    by (eapply verify_Ok_earlier; [exact Hle | exact Hv2]).
  destruct (verify_Ok_cookie _ _ _ _ Hv2) as [Hc HT].
  assert (Hiat2 : iat d < t2 / 1000).
  { assert (t1 / 1000 <= t2 / 1000) by (apply Z.div_le_mono; lia). lia. }
  (* first call: the token is active *)
  assert (H1 : refresh env t1 (Some T) db = rotate env t1 id user T db).
  { apply (refresh_token_active env t1 T db d Hv1 user Hu).
    apply find_token_Some, Hin. }
  pose proof (rotate_lookup env t1 id T db user Hu) as Hu1.
  set (user1 := rotated env t1 id T user) in *.
  (* second call: the history entry of the first call is recent *)
  assert (H2 : refresh env t2 (Some T) (rotate env t1 id user T db).2 =
               rotate env t2 id user1 T (rotate env t1 id user T db).2).
  { apply (refresh_grace env t2 T _ d Hv2 user1 Hu1).
    unfold find_recently_used, user1. rewrite rotated_history. cbn.
    destruct (Z.ltb_spec (t2 - t1) (30 * 1000)); [eauto | lia]. }
  pose proof (rotate_lookup env t2 id T _ user1 Hu1) as Hu2.
  set (user2 := rotated env t2 id T user1) in *.
  cbn zeta. rewrite H1, H2.
  set (db2 := (rotate env t2 id user1 T (rotate env t1 id user T db).2).2) in *.
  (* the ACTIVE collection after the second call *)
  set (refresh1 := generateRefreshToken env t1 id (u_email user)).
  set (refresh2 := generateRefreshToken env t2 id (u_email user)).
  set (rest := token <$>
     filter (fun e => token e <> T)
       (filter (fun e => ~ createdAt e < t2 - sevenDays)
          (filter (fun e => token e <> T)
             (filter (fun e => ~ createdAt e < t1 - sevenDays) (refreshToken user))))).
  assert (Hne1 : refresh1 <> T) by (rewrite HT; apply minted_later_differs, Hiat).
  assert (Hne2 : refresh2 <> T) by (rewrite HT; apply minted_later_differs, Hiat2).
  assert (Hactive2 : token <$> refreshToken user2 = (rest ++ [refresh1; refresh2])%list).
  { unfold user2. rewrite rotated_tokens. unfold user1 at 1. rewrite rotated_tokens.
    rewrite !filter_app.
    rewrite (filter_cons_True (fun e => ~ createdAt e < t2 - sevenDays))
      by (cbv [createdAt sevenDays]; lia).
    rewrite filter_nil.
    rewrite (filter_cons_True (fun e => token e <> T)) by exact Hne1.
    rewrite filter_nil.
    rewrite !fmap_app, <- app_assoc. reflexivity. }
  assert (Hrest : T ∉ rest).
  { unfold rest. intros Hx. apply list_elem_of_fmap in Hx as (e & He & Hx).
    apply list_elem_of_filter in Hx as [Hne _]. congruence. }
  assert (Hgone : T ∉ token <$> refreshToken user2).
  { rewrite Hactive2. intros Hx. apply elem_of_app in Hx as [Hx | Hx]; [tauto|].
    apply elem_of_cons in Hx as [Hx | Hx]; [congruence|].
    apply list_elem_of_singleton in Hx. congruence. }
  split; [|split; [|split; [|split]]].
  - split; [reflexivity|]. apply minted_pair_verifies; assumption.
  - split; [reflexivity|]. apply minted_pair_verifies; assumption.
  - exists rest. unfold active_tokens. rewrite Hu2, Hu.
    split; [exact Hactive2|]. split; [exact Hrest|]. split.
    + intros x Hx. unfold rest in Hx.
      apply list_elem_of_fmap in Hx as (e & -> & He).
      repeat (apply list_elem_of_filter in He as [_ He]).
      apply list_elem_of_fmap_2, He.
    + intros Hone. destruct rest as [|x rest'] eqn:Erest; [reflexivity|].
      exfalso. apply Hrest.
      assert (Hx : x ∈ token <$> refreshToken user).
      { assert (Hx : x ∈ rest) by (rewrite Erest; left).
        unfold rest in Hx. apply list_elem_of_fmap in Hx as (e & -> & He).
        repeat (apply list_elem_of_filter in He as [_ He]).
        apply list_elem_of_fmap_2, He. }
      rewrite Hone in Hx. apply list_elem_of_singleton in Hx. subst x. left.
  - unfold active_tokens. rewrite Hu2. exact Hgone.
  - (* third call *)
    destruct (verifyRefreshToken env t3 T) as [d3|e] eqn:Hv3.
    + destruct (verify_Ok_cookie _ _ _ _ Hv3) as [_ HT3].
      assert (d3 = d) by congruence. subst d3.
      rewrite (refresh_unknown_token env t3 T db2 d Hv3 user2 Hu2).
      * unfold reject_unknown. destruct (_ <? _); cbn; split; (discriminate || reflexivity).
      * apply find_token_None, Hgone.
      * apply find_recently_used_None. unfold user2. rewrite rotated_history.
        repeat constructor. cbn. lia.
    + rewrite (refresh_verification_throws env t3 T db2 e Hc Hv3).
      cbn. split; (discriminate || reflexivity).
Qed.

Lemma rotate_twice_within_grace_witness :
  let T := Scenario.issued 0 in
  let first := refresh default_env 10000 (Some T) Scenario.signed_up in
  let second := refresh default_env 12000 (Some T) (first.2) in
  let third := refresh default_env 50000 (Some T) (second.2) in
  verifyRefreshToken default_env 12000 T = Ok (mkPayload "u1" "ann@x.com" 0 604800)
  /\ (T ∉ active_tokens "u1" (second.2))
  /\ status (third.1) <> 200.
Proof.
  assert (Hv : verifyRefreshToken default_env 12000 (Scenario.issued 0) =
               Ok (mkPayload "u1" "ann@x.com" 0 604800)) by (vm_compute; reflexivity).
  split; [exact Hv|].
  pose proof (rotate_twice_within_grace default_env Scenario.signed_up
                (Scenario.issued 0) (mkPayload "u1" "ann@x.com" 0 604800)
                Scenario.ann
                10000 12000 50000 Hv) as Hrun.
  cbv zeta in Hrun.
  destruct Hrun as (_ & _ & _ & Hgone & Hthird & _).
  - vm_compute. reflexivity.
  - apply (bool_decide_unpack _). vm_compute. exact I.
  - vm_compute. reflexivity.
  - lia.
  - lia.
  - vm_compute. reflexivity.
  - vm_compute. reflexivity.
  - split; [exact Hgone | exact Hthird].
Defined.

(** * Further properties of the handlers *)

(** ** Token utilities *)

(** X1. Two refresh tokens minted under one environment are the same
    string exactly when they carry the same subject id and email and were
    minted within the same clock second. *)
Theorem minted_refresh_tokens_equal
    (env : Env) (t t' : Z) (uid uid' mail mail' : string) :
  generateRefreshToken env t uid mail = generateRefreshToken env t' uid' mail'
  <-> uid = uid' /\ mail = mail' /\ t / 1000 = t' / 1000.
Proof.
  unfold generateRefreshToken, Jwt.sign. split.
  - intros [= -> -> Hiat _]. auto.
  - intros (-> & -> & ->). reflexivity.
Qed.



(** ** The paths of [refresh] *)

Lemma refresh_path env now presented (db : DB) :
  RefreshPath env now presented db (refresh env now presented db).
Proof.
  unfold refresh. destruct presented as [tok|]; [|by constructor].
  destruct (cookie_missing (Some tok)) eqn:Hc; [by constructor|].
  destruct (verifyRefreshToken env now tok) as [d|e] eqn:Hv;
    [|by eapply path_caught].
  cbn zeta. unfold findById.
  destruct (db !! userId d) as [user|] eqn:Hu; [|by eapply path_no_user].
  destruct (find_token tok user) as [entry|] eqn:Ht.
  { eapply path_rotate; eauto. }
  destruct (find_recently_used now user) as [h|] eqn:Hh.
  { eapply path_rotate; eauto. }
  by eapply path_reject.
Qed.

Lemma reject_unknown_status now id d (db : DB) :
  status (reject_unknown now id d db).1 <> 200.
Proof. unfold reject_unknown. destruct (_ <? _); cbn; discriminate. Qed.

Lemma rotate_other env now id j u tok (db : DB) :
  id <> j -> (rotate env now id u tok db).2 !! j = db !! j.
Proof.
  intros Hne. unfold rotate. cbn [snd].
  rewrite !findByIdAndUpdate_other by exact Hne. reflexivity.
Qed.

Lemma find_token_is_Some tok u :
  is_Some (find_token tok u) <-> tok ∈ token <$> refreshToken u.
Proof.
  split; [|apply find_token_Some].
  intros [e He]. unfold find_token in He.
  apply List.find_some in He as [Hin Htok].
  apply bool_decide_eq_true in Htok. subst tok.
  apply list_elem_of_fmap_2, list_elem_of_In, Hin.
Qed.

Lemma find_recently_used_is_Some now u :
  is_Some (find_recently_used now u)
  <-> Exists (fun h => now - h_lastUsedAt h < 30 * 1000) (refreshHistory u).
Proof.
  unfold find_recently_used. split.
  - intros [h Hh]. apply List.find_some in Hh as [Hin Hlt].
    apply Exists_exists. exists h. split; [apply list_elem_of_In, Hin|].
    apply Z.ltb_lt, Hlt.
  - intros Hex. apply Exists_exists in Hex as (h & Hin & Hlt).
    destruct (List.find _ _) as [h'|] eqn:Hf; [eauto|].
    apply list_elem_of_In in Hin.
    pose proof (List.find_none _ _ Hf h Hin) as Hb. cbn in Hb.
    apply Z.ltb_ge in Hb. lia.
Qed.

(** ** What [refresh] accepts, and what it leaves behind *)

(** X4. A /refresh call is answered 200 exactly when the presented token
    verifies, its subject has a document, and either the token is in that
    document's ACTIVE collection or some history entry of the document was
    stamped less than 30 seconds ago. *)
Theorem refresh_succeeds_iff (env : Env) (now : Z) (tok : Token) (db : DB) :
  status (refresh env now (Some tok) db).1 = 200
  <-> exists d user,
        verifyRefreshToken env now tok = Ok d
        /\ db !! userId d = Some user
        /\ (tok ∈ token <$> refreshToken user
            \/ Exists (fun h => now - h_lastUsedAt h < 30 * 1000) (refreshHistory user)).
Proof.
  split.
  - intros Hst.
    destruct (refresh_path env now (Some tok) db)
      as [_ | ? ? _ _ _ | ? ? _ _ _ | tok' d user [= <-] Hv Hu Hacc
          | tok' d user _ _ _ _ _];
      try (cbn in Hst; discriminate).
    + exists d, user. split; [exact Hv|]. split; [exact Hu|].
      destruct Hacc as [Ht | Hh].
      * left. apply find_token_is_Some, Ht.
      * right. apply find_recently_used_is_Some, Hh.
    + exfalso. exact (reject_unknown_status _ _ _ _ Hst).
  - intros (d & user & Hv & Hu & [Ht | Hh]).
    + rewrite (refresh_token_active env now tok db d Hv user Hu); [reflexivity|].
      apply find_token_is_Some, Ht.
    + rewrite (refresh_grace env now tok db d Hv user Hu); [reflexivity|].
      apply find_recently_used_is_Some, Hh.
Qed.

(** In the model, whose documents carry no time stamps, a call that is
    not answered 200 returns the database it was given. *)
Lemma refresh_failure_store env now presented (db : DB) :
  status (refresh env now presented db).1 <> 200 ->
  (refresh env now presented db).2 = db.
Proof.
  intros Hst.
  destruct (refresh_path env now presented db); try reflexivity.
  - exfalso. apply Hst. reflexivity.
  - apply reject_unknown_store.
Qed.

(** X5. Every /refresh answer other than 200 leaves every user's ACTIVE
    collection and history as they were, the 403 answer to a detected
    reuse included. *)
Theorem refresh_failure_keeps_collections
    (env : Env) (now : Z) (presented : option Token) (db : DB) (j : string) :
  status (refresh env now presented db).1 <> 200 ->
  refreshToken <$> (refresh env now presented db).2 !! j = refreshToken <$> db !! j
  /\ refreshHistory <$> (refresh env now presented db).2 !! j
     = refreshHistory <$> db !! j.
Proof.
  intros Hst. rewrite (refresh_failure_store env now presented db Hst).
  split; reflexivity.
Qed.

Lemma refresh_failure_keeps_collections_witness :
  refreshToken <$>
    (refresh default_env 100000 (Some (Scenario.issued 0)) Scenario.rotated_once).2
      !! "u1"
  = Some [mkRefreshToken (Scenario.issued 10000) 10000 10000].
Proof.
  destruct (refresh_failure_keeps_collections default_env 100000
              (Some (Scenario.issued 0)) Scenario.rotated_once "u1") as [Hactive _].
  - vm_compute. discriminate.
  - rewrite Hactive. vm_compute. reflexivity.
Defined.

Lemma refresh_account_fields env now presented (db : DB) j :
  account_fields <$> (refresh env now presented db).2 !! j
  = account_fields <$> db !! j.
Proof.
  destruct (refresh_path env now presented db)
    as [_ | ? ? _ _ _ | ? ? _ _ _ | tok d user _ _ Hu _ | tok d user _ _ _ _ _];
    try reflexivity.
  - destruct (decide (userId d = j)) as [<-|Hne].
    + rewrite (rotate_lookup env now (userId d) tok db user Hu), Hu. reflexivity.
    + rewrite rotate_other by exact Hne. reflexivity.
  - rewrite reject_unknown_store. reflexivity.
Qed.

(** X6. Whatever it answers, /refresh adds no user, removes none, and
    changes no user's email, password hash or name. *)
Theorem refresh_preserves_accounts
    (env : Env) (now : Z) (presented : option Token) (db : DB) (j : string) :
  (is_Some ((refresh env now presented db).2 !! j) <-> is_Some (db !! j))
  /\ account_fields <$> (refresh env now presented db).2 !! j
     = account_fields <$> db !! j.
Proof.
  pose proof (refresh_account_fields env now presented db j) as Hf.
  split; [|exact Hf].
  destruct ((refresh env now presented db).2 !! j), (db !! j);
    cbn in Hf; try discriminate; split; intros [? ?]; eauto; discriminate.
Qed.

(** X7. /refresh with a token that verifies changes at most the document
    of the token's subject: every other user's document is as before. *)
Theorem refresh_touches_subject_only
    (env : Env) (now : Z) (tok : Token) (db : DB) (d : TokenPayload) (j : string) :
  verifyRefreshToken env now tok = Ok d ->
  j <> userId d ->
  (refresh env now (Some tok) db).2 !! j = db !! j.
Proof.
  intros Hv Hne.
  destruct (refresh_path env now (Some tok) db)
    as [_ | ? ? _ _ _ | ? ? _ _ _ | tok' d' user [= <-] Hv' _ _
        | tok' d' user _ _ _ _ _];
    try reflexivity.
  - assert (d' = d) by congruence. subst d'.
    apply rotate_other. congruence.
  - rewrite reject_unknown_store. reflexivity.
Qed.

Lemma refresh_touches_subject_only_witness :
  (refresh default_env 10000 (Some (Scenario.issued 0))
     (<["u2" := Scenario.ann]> Scenario.signed_up)).2 !! "u2"
  = Some Scenario.ann.
Proof.
  rewrite (refresh_touches_subject_only default_env 10000 (Scenario.issued 0)
             (<["u2" := Scenario.ann]> Scenario.signed_up)
             (mkPayload "u1" "ann@x.com" 0 604800) "u2").
  - vm_compute. reflexivity.
  - vm_compute. reflexivity.
  - vm_compute. discriminate.
Defined.

Lemma refresh_success_rotated env now tok (db : DB) :
  status (refresh env now (Some tok) db).1 = 200 ->
  exists d user,
    verifyRefreshToken env now tok = Ok d
    /\ db !! userId d = Some user
    /\ refresh env now (Some tok) db = rotate env now (userId d) user tok db.
Proof.
  intros Hst.
  destruct (refresh_path env now (Some tok) db)
    as [_ | ? ? _ _ _ | ? ? _ _ _ | tok' d user [= <-] Hv Hu _
        | tok' d user _ _ _ _ _];
    try (cbn in Hst; discriminate).
  - exists d, user. auto.
  - exfalso. exact (reject_unknown_status _ _ _ _ Hst).
Qed.

(** X8. After a /refresh answered 200 the cookie carries the refresh token
    minted at that instant for the subject, that token is the last entry
    of the subject's ACTIVE collection, stamped now, and the subject's
    history consists of one entry: the presented token, stamped now. *)
Theorem refresh_success_state (env : Env) (now : Z) (tok : Token) (db : DB) :
  status (refresh env now (Some tok) db).1 = 200 ->
  exists d user user',
    verifyRefreshToken env now tok = Ok d
    /\ db !! userId d = Some user
    /\ (refresh env now (Some tok) db).2 !! userId d = Some user'
    /\ cookie (refresh env now (Some tok) db).1 =
         CookieSet (generateRefreshToken env now (userId d) (u_email user))
    /\ last (refreshToken user') =
         Some (mkRefreshToken
                 (generateRefreshToken env now (userId d) (u_email user)) now now)
    /\ refreshHistory user' = [mkRefreshHistory tok now].
Proof.
  intros Hst. destruct (refresh_success_rotated _ _ _ _ Hst) as (d & user & Hv & Hu & ->).
  exists d, user, (rotated env now (userId d) tok user).
  split; [exact Hv|]. split; [exact Hu|].
  split; [apply rotate_lookup, Hu|].
  split; [reflexivity|].
  split; [|reflexivity].
  rewrite rotated_tokens. apply last_snoc.
Qed.

Lemma refresh_success_state_witness :
  exists d user user',
    verifyRefreshToken default_env 10000 (Scenario.issued 0) = Ok d
    /\ Scenario.signed_up !! userId d = Some user
    /\ Scenario.rotated_once !! userId d = Some user'
    /\ cookie (refresh default_env 10000 (Some (Scenario.issued 0))
                 Scenario.signed_up).1 =
         CookieSet (generateRefreshToken default_env 10000 (userId d) (u_email user))
    /\ last (refreshToken user') =
         Some (mkRefreshToken
                 (generateRefreshToken default_env 10000 (userId d) (u_email user))
                 10000 10000)
    /\ refreshHistory user' = [mkRefreshHistory (Scenario.issued 0) 10000].
Proof.
  apply (refresh_success_state default_env 10000 (Scenario.issued 0) Scenario.signed_up).
  vm_compute. reflexivity.
Defined.

(** X9. After a /refresh answered 200, every entry of the subject's ACTIVE
    collection is either the entry just minted or an entry that was there
    before, does not hold the presented token and was created at most 7
    days ago. *)
Theorem refresh_success_prunes (env : Env) (now : Z) (tok : Token) (db : DB) :
  status (refresh env now (Some tok) db).1 = 200 ->
  exists d user user',
    verifyRefreshToken env now tok = Ok d
    /\ db !! userId d = Some user
    /\ (refresh env now (Some tok) db).2 !! userId d = Some user'
    /\ Forall (fun e =>
         e = mkRefreshToken
               (generateRefreshToken env now (userId d) (u_email user)) now now
         \/ (e ∈ refreshToken user /\ token e <> tok /\ now - sevenDays <= createdAt e))
       (refreshToken user').
Proof.
  intros Hst. destruct (refresh_success_rotated _ _ _ _ Hst) as (d & user & Hv & Hu & ->).
  exists d, user, (rotated env now (userId d) tok user).
  split; [exact Hv|]. split; [exact Hu|].
  split; [apply rotate_lookup, Hu|].
  rewrite rotated_tokens. apply Forall_forall. intros e He.
  apply elem_of_app in He as [He | He].
  - right. apply list_elem_of_filter in He as [Hne He].
    apply list_elem_of_filter in He as [Hage He].
    split; [exact He|]. split; [exact Hne|]. lia.
  - left. apply list_elem_of_singleton in He. exact He.
Qed.

Lemma refresh_success_prunes_witness :
  exists d user user',
    verifyRefreshToken default_env 10000 (Scenario.issued 0) = Ok d
    /\ Scenario.signed_up !! userId d = Some user
    /\ Scenario.rotated_once !! userId d = Some user'
    /\ Forall (fun e =>
         e = mkRefreshToken
               (generateRefreshToken default_env 10000 (userId d) (u_email user))
               10000 10000
         \/ (e ∈ refreshToken user /\ token e <> Scenario.issued 0
             /\ 10000 - sevenDays <= createdAt e))
       (refreshToken user').
Proof.
  apply (refresh_success_prunes default_env 10000 (Scenario.issued 0) Scenario.signed_up).
  vm_compute. reflexivity.
Defined.

(** X10. The refresh token handed out by a /refresh answered 200 is itself
    accepted by a following /refresh, at any instant at which it still
    verifies. *)
Theorem minted_token_rotates
    (env : Env) (t1 t2 : Z) (tok minted : Token) (db : DB) (d2 : TokenPayload) :
  status (refresh env t1 (Some tok) db).1 = 200 ->
  cookie (refresh env t1 (Some tok) db).1 = CookieSet minted ->
  verifyRefreshToken env t2 minted = Ok d2 ->
  status (refresh env t2 (Some minted) (refresh env t1 (Some tok) db).2).1 = 200.
Proof.
  intros Hst Hcookie Hv2.
  destruct (refresh_success_rotated _ _ _ _ Hst) as (d & user & Hv & Hu & Hrot).
  rewrite Hrot in *. cbn in Hcookie. injection Hcookie as <-.
  pose proof (rotate_lookup env t1 (userId d) tok db user Hu) as Hu1.
  assert (Hid : userId d2 = userId d).
  { destruct (verify_Ok_cookie _ _ _ _ Hv2) as [_ Heq].
    unfold generateRefreshToken, Jwt.sign in Heq. injection Heq as <-. reflexivity. }
  assert (Hu2 : (rotate env t1 (userId d) user tok db).2 !! userId d2 =
                Some (rotated env t1 (userId d) tok user))
    by (rewrite Hid; exact Hu1).
  rewrite (refresh_token_active env t2 _ _ d2 Hv2 _ Hu2); [reflexivity|].
  apply find_token_Some. rewrite rotated_tokens, fmap_app.
  apply elem_of_app. right. cbn. left.
Qed.

Lemma minted_token_rotates_witness :
  status (refresh default_env 50000 (Some (Scenario.issued 10000))
            (refresh default_env 10000 (Some (Scenario.issued 0)) Scenario.signed_up).2).1
  = 200.
Proof.
  apply (minted_token_rotates default_env 10000 50000 (Scenario.issued 0)
           (Scenario.issued 10000) Scenario.signed_up
           (mkPayload "u1" "ann@x.com" 10 604810)).
  - vm_compute. reflexivity.
  - vm_compute. reflexivity.
  - vm_compute. reflexivity.
Defined.

(** ** Password change *)

Lemma updatePassword_lookup `{Bcrypt} id cur new (db : DB) user :
  db !! id = Some user ->
  comparePassword user cur = true ->
  (updatePassword id cur new db).2 !! id =
    Some (mkUser (u_email user) (bcrypt_hash new) (u_name user) []
            (refreshHistory user)).
Proof.
  intros Hu Hcmp. unfold updatePassword, findById. rewrite Hu, Hcmp. cbn [negb snd].
  rewrite (findByIdAndUpdate_lookup id save_no_refresh_tokens _ (save_password new user)).
  - reflexivity.
  - apply findByIdAndUpdate_lookup, Hu.
Qed.

Lemma updatePassword_other `{Bcrypt} id j cur new (db : DB) :
  j <> id -> (updatePassword id cur new db).2 !! j = db !! j.
Proof.
  intros Hne. unfold updatePassword.
  destruct (findById id db); [|reflexivity].
  destruct (negb _); [reflexivity|]. cbn [snd].
  rewrite !findByIdAndUpdate_other by congruence. reflexivity.
Qed.

(** X11. When the user exists and the current password matches,
    [updatePassword] answers 200 without touching the cookie; the user's
    document keeps its email, name and history, holds the hash of the new
    password and an empty ACTIVE collection. *)
Theorem updatePassword_success `{Bcrypt}
    (id currentPassword newPassword : string) (db : DB) (user : UserDoc) :
  db !! id = Some user ->
  comparePassword user currentPassword = true ->
  (updatePassword id currentPassword newPassword db).1 =
    mkResponse 200 (MessageBody "Password updated succesfully. Please log in again.")
      CookieUntouched
  /\ (updatePassword id currentPassword newPassword db).2 !! id =
       Some (mkUser (u_email user) (bcrypt_hash newPassword) (u_name user) []
               (refreshHistory user)).
Proof.
  intros Hu Hcmp. split; [|apply updatePassword_lookup; assumption].
  unfold updatePassword, findById. rewrite Hu, Hcmp. reflexivity.
Qed.

Lemma updatePassword_success_witness :
  Scenario.password_changed !! "u1" =
    Some (mkUser "ann@x.com" "$2a$10$pw654321" "Ann" []
            [mkRefreshHistory (Scenario.issued 0) 10000]).
Proof.
  assert (Hu : Scenario.rotated_once !! "u1" =
    Some (rotated default_env 10000 "u1" (Scenario.issued 0) Scenario.ann))
    by (vm_compute; reflexivity).
  assert (Hcmp : comparePassword (H := plain_bcrypt)
            (rotated default_env 10000 "u1" (Scenario.issued 0) Scenario.ann)
            "pw123456" = true) by (vm_compute; reflexivity).
  pose proof (updatePassword_success (H := plain_bcrypt) "u1" "pw123456" "pw654321"
                Scenario.rotated_once _ Hu Hcmp) as [_ Hdoc].
  exact Hdoc.
Defined.

(** X12. [updatePassword] never touches the document of another user,
    whatever it answers. *)
Theorem updatePassword_other_users `{Bcrypt}
    (id j currentPassword newPassword : string) (db : DB) :
  j <> id ->
  (updatePassword id currentPassword newPassword db).2 !! j = db !! j.
Proof. apply updatePassword_other. Qed.

Lemma updatePassword_other_users_witness :
  (updatePassword (H := plain_bcrypt) "u1" "pw123456" "pw654321"
     (<["u2" := Scenario.ann]> Scenario.signed_up)).2 !! "u2"
  = Some Scenario.ann.
Proof.
  rewrite (updatePassword_other_users (H := plain_bcrypt) "u1" "u2"
             "pw123456" "pw654321" (<["u2" := Scenario.ann]> Scenario.signed_up)).
  - vm_compute. reflexivity.
  - vm_compute. discriminate.
Defined.

(** X13. After a successful password change, a refresh token of that user
    presented while no history entry of the user was stamped within the
    last 30 seconds gets no new pair: the answer is 401 or 403 and the
    cookie is cleared. *)
Theorem password_change_rejects_outside_grace `{Bcrypt}
    (env : Env) (now : Z) (id currentPassword newPassword : string)
    (db : DB) (user : UserDoc) (tok : Token) (d : TokenPayload) :
  db !! id = Some user ->
  comparePassword user currentPassword = true ->
  Forall (fun h => 30 * 1000 <= now - h_lastUsedAt h) (refreshHistory user) ->
  verifyRefreshToken env now tok = Ok d ->
  userId d = id ->
  let answer :=
    (refresh env now (Some tok) (updatePassword id currentPassword newPassword db).2).1 in
  (status answer = 401 \/ status answer = 403) /\ cookie answer = CookieCleared.
Proof.
  intros Hu Hcmp Hhist Hv <-.
  pose proof (updatePassword_lookup (userId d) currentPassword newPassword db user Hu Hcmp)
    as Hu'.
  cbv zeta.
  rewrite (refresh_unknown_token env now tok _ d Hv _ Hu').
  - unfold reject_unknown. destruct (_ <? _); cbn; auto.
  - reflexivity.
  - apply find_recently_used_None. exact Hhist.
Qed.

Lemma password_change_rejects_outside_grace_witness :
  let answer :=
    (refresh default_env 60000 (Some (Scenario.issued 10000))
       Scenario.password_changed).1 in
  (status answer = 401 \/ status answer = 403) /\ cookie answer = CookieCleared.
Proof.
  apply (password_change_rejects_outside_grace (H := plain_bcrypt) default_env 60000
           "u1" "pw123456" "pw654321" Scenario.rotated_once
           (rotated default_env 10000 "u1" (Scenario.issued 0) Scenario.ann)
           (Scenario.issued 10000) (mkPayload "u1" "ann@x.com" 10 604810)).
  - vm_compute. reflexivity.
  - vm_compute. reflexivity.
  - repeat constructor. vm_compute. discriminate.
  - vm_compute. reflexivity.
  - reflexivity.
Defined.

(** ** The [authenticate] middleware *)

Lemma authenticate_ext env now h (db1 db2 : DB) :
  (forall j, public_profile <$> db1 !! j = public_profile <$> db2 !! j) ->
  authenticate env now h db1 = authenticate env now h db2.
Proof.
  intros Hsame. unfold authenticate. destruct h as [|tok|v]; try reflexivity.
  destruct (verifyAccessToken env now tok) as [d|e]; [|reflexivity].
  unfold findById. specialize (Hsame (userId d)).
  destruct (db1 !! userId d) as [u1|], (db2 !! userId d) as [u2|];
    cbn in Hsame; try discriminate; [|reflexivity].
  injection Hsame as He Hn. unfold public_profile in *. congruence.
Qed.

(** X14. An access token minted for the id of an existing user passes
    [authenticate] for as long as the clock (in seconds) is below its
    expiry; [req.user] carries the email and name of the stored document,
    not those in the token. *)
Theorem authenticate_accepts_minted_access_token
    (env : Env) (t now : Z) (uid mail : string) (db : DB) (user : UserDoc) :
  db !! uid = Some user ->
  now / 1000 < t / 1000 + access_expiry env ->
  authenticate env now (Bearer (generateAccessToken env t uid mail)) db =
    Next (mkRequestUser uid (u_email user) (u_name user)).
Proof.
  intros Hu Hlive. unfold authenticate, verifyAccessToken, generateAccessToken.
  rewrite verify_sign_same_secret.
  destruct (Z.ltb_spec (now / 1000) (t / 1000 + access_expiry env)); [|lia].
  cbn [userId]. unfold findById. rewrite Hu. reflexivity.
Qed.

Lemma authenticate_accepts_minted_access_token_witness :
  authenticate default_env 60000
    (Bearer (generateAccessToken default_env 0 "u1" "old@x.com")) Scenario.signed_up =
    Next (mkRequestUser "u1" "ann@x.com" "Ann").
Proof.
  apply (authenticate_accepts_minted_access_token default_env 0 60000 "u1" "old@x.com"
           Scenario.signed_up Scenario.ann).
  - vm_compute. reflexivity.
  - vm_compute. reflexivity.
Defined.

(** X15. With distinct access and refresh secrets, a refresh token sent as
    bearer token is turned away by [authenticate] with 401 "Invalid or
    expired token", at every instant and whatever the database holds. *)
Theorem authenticate_rejects_refresh_token
    (env : Env) (t now : Z) (uid mail : string) (db : DB) :
  access_secret env <> refresh_secret env ->
  authenticate env now (Bearer (generateRefreshToken env t uid mail)) db =
    Respond (mkResponse 401 (ErrorBody "Invalid or expired token") CookieUntouched).
Proof.
  intros Hne. unfold authenticate, verifyAccessToken, generateRefreshToken.
  rewrite verify_sign_other_secret by congruence. reflexivity.
Qed.

Lemma authenticate_rejects_refresh_token_witness :
  authenticate default_env 5000 (Bearer (Scenario.issued 0)) Scenario.signed_up =
    Respond (mkResponse 401 (ErrorBody "Invalid or expired token") CookieUntouched).
Proof.
  apply (authenticate_rejects_refresh_token default_env 0 5000 "u1" "ann@x.com"
           Scenario.signed_up).
  vm_compute. discriminate.
Defined.

(** X16. What [authenticate] decides does not depend on refresh-token
    state: it gives the same result before and after any /refresh call. *)
Theorem authenticate_after_refresh
    (env env' : Env) (now now' : Z) (h : AuthorizationHeader)
    (presented : option Token) (db : DB) :
  authenticate env now h (refresh env' now' presented db).2 = authenticate env now h db.
Proof.
  apply authenticate_ext. intros j.
  pose proof (refresh_account_fields env' now' presented db j) as Hf.
  destruct ((refresh env' now' presented db).2 !! j), (db !! j);
    cbn in *; try discriminate; [|reflexivity].
  unfold account_fields, public_profile in *. congruence.
Qed.

(** X17. A password change revokes no access token: [authenticate] gives
    the same result before and after any [updatePassword] call. *)
Theorem authenticate_after_updatePassword `{Bcrypt}
    (env : Env) (now : Z) (h : AuthorizationHeader)
    (id currentPassword newPassword : string) (db : DB) :
  authenticate env now h (updatePassword id currentPassword newPassword db).2
  = authenticate env now h db.
Proof.
  apply authenticate_ext. intros j.
  destruct (decide (j = id)) as [->|Hne].
  - unfold updatePassword, findById.
    destruct (db !! id) as [user|] eqn:Hu; [|cbn [snd]; rewrite Hu; reflexivity].
    destruct (negb _); cbn [snd]; [rewrite Hu; reflexivity|].
    rewrite (findByIdAndUpdate_lookup id save_no_refresh_tokens _
               (save_password newPassword user))
      by (apply findByIdAndUpdate_lookup, Hu).
    reflexivity.
  - rewrite updatePassword_other by exact Hne. reflexivity.
Qed.

(** ** Account deletion *)

Lemma deleteUser_success `{Bcrypt} id password (db : DB) user :
  db !! id = Some user ->
  password <> "" ->
  comparePassword user password = true ->
  deleteUser id (Some password) db =
    (mkResponse 200 (MessageBody "Account deleted successfully") CookieCleared,
     delete id db).
Proof.
  intros Hu Hne Hcmp. unfold deleteUser, findById.
  rewrite decide_False by exact Hne. rewrite Hu, Hcmp. reflexivity.
Qed.

(** X18. [deleteUser] removes the caller's document, and nothing else,
    exactly when it answers 200, which takes a non-empty password that
    matches the stored hash of an existing user; every other answer leaves
    the database and the cookie as they were. *)
Theorem deleteUser_outcome `{Bcrypt} (id : string) (password : option string) (db : DB) :
  let outcome := deleteUser id password db in
  (status outcome.1 = 200
   /\ cookie outcome.1 = CookieCleared
   /\ outcome.2 = delete id db
   /\ exists p user,
        password = Some p /\ p <> "" /\ db !! id = Some user
        /\ comparePassword user p = true)
  \/ (status outcome.1 <> 200
      /\ cookie outcome.1 = CookieUntouched
      /\ outcome.2 = db).
Proof.
  cbv zeta. unfold deleteUser, findById.
  destruct password as [p|]; [|right; cbn; auto].
  destruct (decide (p = "")) as [->|Hne]; [right; cbn; auto|].
  destruct (db !! id) as [user|] eqn:Hu; [|right; cbn; auto].
  destruct (comparePassword user p) eqn:Hcmp; [|right; cbn; auto].
  left. cbn. repeat split; eauto 10.
Qed.

(** X19. Once an account is deleted, a refresh token of that user that
    still verifies is answered 403 "User not found." and the cookie is
    cleared; no new pair is minted. *)
Theorem refresh_after_deleteUser `{Bcrypt}
    (env : Env) (now : Z) (id password : string) (db : DB) (user : UserDoc)
    (tok : Token) (d : TokenPayload) :
  db !! id = Some user ->
  password <> "" ->
  comparePassword user password = true ->
  verifyRefreshToken env now tok = Ok d ->
  userId d = id ->
  refresh env now (Some tok) (deleteUser id (Some password) db).2 =
    (mkResponse 403 (MessageBody "User not found.") CookieCleared, delete id db).
Proof.
  intros Hu Hne Hcmp Hv <-.
  rewrite (deleteUser_success _ _ _ _ Hu Hne Hcmp). cbn [snd].
  apply (refresh_user_not_found env now tok _ d Hv).
  apply lookup_delete_eq.
Qed.

Lemma refresh_after_deleteUser_witness :
  refresh default_env 20000 (Some (Scenario.issued 10000))
    (deleteUser (H := plain_bcrypt) "u1" (Some "pw123456") Scenario.rotated_once).2 =
    (mkResponse 403 (MessageBody "User not found.") CookieCleared,
     delete "u1" Scenario.rotated_once).
Proof.
  apply (refresh_after_deleteUser (H := plain_bcrypt) default_env 20000 "u1" "pw123456"
           Scenario.rotated_once
           (rotated default_env 10000 "u1" (Scenario.issued 0) Scenario.ann)
           (Scenario.issued 10000) (mkPayload "u1" "ann@x.com" 10 604810)).
  - vm_compute. reflexivity.
  - discriminate.
  - vm_compute. reflexivity.
  - vm_compute. reflexivity.
  - reflexivity.
Defined.

(** X20. Once an account is deleted, an access token of that user that
    still verifies no longer passes [authenticate]: the answer is 401
    "Unauthorized". *)
Theorem authenticate_after_deleteUser `{Bcrypt}
    (env : Env) (now : Z) (id password : string) (db : DB) (user : UserDoc)
    (tok : Token) (d : TokenPayload) :
  db !! id = Some user ->
  password <> "" ->
  comparePassword user password = true ->
  verifyAccessToken env now tok = Ok d ->
  userId d = id ->
  authenticate env now (Bearer tok) (deleteUser id (Some password) db).2 =
    Respond (mkResponse 401 (MessageBody "Unauthorized") CookieUntouched).
Proof.
  intros Hu Hne Hcmp Hv <-.
  rewrite (deleteUser_success _ _ _ _ Hu Hne Hcmp). cbn [snd].
  unfold authenticate, findById. rewrite Hv, lookup_delete_eq. reflexivity.
Qed.

Lemma authenticate_after_deleteUser_witness :
  authenticate default_env 20000
    (Bearer (generateAccessToken default_env 10000 "u1" "ann@x.com"))
    (deleteUser (H := plain_bcrypt) "u1" (Some "pw123456") Scenario.signed_up).2 =
    Respond (mkResponse 401 (MessageBody "Unauthorized") CookieUntouched).
Proof.
  apply (authenticate_after_deleteUser (H := plain_bcrypt) default_env 20000
           "u1" "pw123456" Scenario.signed_up Scenario.ann
           (generateAccessToken default_env 10000 "u1" "ann@x.com")
           (mkPayload "u1" "ann@x.com" 10 910)).
  - vm_compute. reflexivity.
  - discriminate.
  - vm_compute. reflexivity.
  - vm_compute. reflexivity.
  - reflexivity.
Defined.

(** X21. Once an account is deleted, and no other document carries its
    email, [login] with that email answers 401 "Invalid credentials"
    whatever the password. *)
Theorem login_after_deleteUser `{Bcrypt}
    (env : Env) (now : Z) (id password attempt : string) (db : DB) (user : UserDoc) :
  db !! id = Some user ->
  password <> "" ->
  comparePassword user password = true ->
  (forall j u, j <> id -> db !! j = Some u -> u_email u <> u_email user) ->
  login env now (u_email user) attempt (deleteUser id (Some password) db).2 =
    (mkResponse 401 (ErrorBody "Invalid credentials") CookieUntouched, delete id db).
Proof.
  intros Hu Hne Hcmp Huniq.
  rewrite (deleteUser_success _ _ _ _ Hu Hne Hcmp). cbn [snd].
  unfold login. rewrite findOne_email_None; [reflexivity|].
  intros j u Hj. apply lookup_delete_Some in Hj as [Hji Hj].
  apply (Huniq j u); [congruence | exact Hj].
Qed.

Lemma login_after_deleteUser_witness :
  login (H := plain_bcrypt) default_env 20000 "ann@x.com" "pw123456"
    (deleteUser (H := plain_bcrypt) "u1" (Some "pw123456") Scenario.signed_up).2 =
    (mkResponse 401 (ErrorBody "Invalid credentials") CookieUntouched,
     delete "u1" Scenario.signed_up).
Proof.
  apply (login_after_deleteUser (H := plain_bcrypt) default_env 20000 "u1"
           "pw123456" "pw123456" Scenario.signed_up Scenario.ann).
  - vm_compute. reflexivity.
  - discriminate.
  - vm_compute. reflexivity.
  - intros j u Hne Hj. unfold Scenario.signed_up in Hj.
    rewrite lookup_singleton_ne in Hj by congruence. discriminate.
Defined.

(** ** The cookie and the grace period *)

(** X22. /refresh leaves the cookie alone only when none (or an empty one)
    was presented, which it answers 401; with a cookie presented it either
    answers 200 and sets a new cookie, or answers 401, 403 or 500 and
    clears the cookie. *)
Theorem refresh_cookie_discipline
    (env : Env) (now : Z) (presented : option Token) (db : DB) :
  let answer := (refresh env now presented db).1 in
  (cookie_missing presented = true
   /\ status answer = 401 /\ cookie answer = CookieUntouched)
  \/ (cookie_missing presented = false
      /\ status answer = 200 /\ exists t, cookie answer = CookieSet t)
  \/ (cookie_missing presented = false
      /\ (status answer = 401 \/ status answer = 403 \/ status answer = 500)
      /\ cookie answer = CookieCleared).
Proof.
  cbv zeta.
  destruct (refresh_path env now presented db)
    as [Hc | tok e -> Hc _ | tok d -> Hv _ | tok d user -> Hv _ _
        | tok d user -> Hv _ _ _].
  - left. auto.
  - right. right. cbn. auto.
  - right. right. destruct (verify_Ok_cookie _ _ _ _ Hv) as [Hc _]. cbn. auto.
  - right. left. destruct (verify_Ok_cookie _ _ _ _ Hv) as [Hc _].
    split; [exact Hc|]. split; [reflexivity|]. eexists. reflexivity.
  - right. right. destruct (verify_Ok_cookie _ _ _ _ Hv) as [Hc _].
    split; [exact Hc|]. unfold reject_unknown. destruct (_ <? _); cbn; auto.
Qed.

(** X23. During the 30 seconds that follow a /refresh answered 200 for a
    user, every refresh token that verifies for that user's id is answered
    200 as well, whether or not it is the token just retired. *)
Theorem grace_period_covers_subject
    (env : Env) (t1 t2 : Z) (tok tok' : Token) (d d' : TokenPayload) (db : DB) :
  status (refresh env t1 (Some tok) db).1 = 200 ->
  verifyRefreshToken env t1 tok = Ok d ->
  verifyRefreshToken env t2 tok' = Ok d' ->
  userId d' = userId d ->
  t2 - t1 < 30 * 1000 ->
  status (refresh env t2 (Some tok') (refresh env t1 (Some tok) db).2).1 = 200.
Proof.
  intros Hst Hv Hv' Hid Hsoon.
  destruct (refresh_success_rotated _ _ _ _ Hst) as (d0 & user & Hv0 & Hu & Hrot).
  assert (d0 = d) by congruence. subst d0. rewrite Hrot.
  pose proof (rotate_lookup env t1 (userId d) tok db user Hu) as Hu1.
  rewrite <- Hid in Hu1 at 1.
  rewrite (refresh_grace env t2 tok' _ d' Hv' _ Hu1); [reflexivity|].
  unfold find_recently_used. rewrite rotated_history. cbn.
  destruct (Z.ltb_spec (t2 - t1) (30 * 1000)); [eauto|lia].
Qed.

Lemma grace_period_covers_subject_witness :
  status (refresh default_env 60000 (Some (Scenario.issued 0))
            (refresh default_env 50000 (Some (Scenario.issued 10000))
               Scenario.rotated_once).2).1 = 200.
Proof.
  apply (grace_period_covers_subject default_env 50000 60000
           (Scenario.issued 10000) (Scenario.issued 0)
           (mkPayload "u1" "ann@x.com" 10 604810)
           (mkPayload "u1" "ann@x.com" 0 604800) Scenario.rotated_once).
  - vm_compute. reflexivity.
  - vm_compute. reflexivity.
  - vm_compute. reflexivity.
  - reflexivity.
  - vm_compute. reflexivity.
Defined.
